(** * A shallow embedding of the Telegram scheduler bots

    [bot.py] is the persistent scheduler: an admin submits
    [/schedule <seconds> /freecredential <user_id>], the handler arms a
    one-shot job in the application's job queue and writes a row into the
    SQLite table [schedules]; when the job fires, [alarm] sends three
    messages and deletes the row; on start-up [main] reads the rows back and
    re-arms them.  [bot1.py] is the in-memory reminder bot.

    Modelling choices.
    - A UTC [datetime] is the integer number of microseconds since the
      epoch, a [timedelta] an integer number of microseconds.  The text form
      SQLite stores ([YYYY-MM-DD HH:MM:SS[.ffffff]+00:00]) orders the same
      way as the instants it denotes, so the SQL comparison [run_at > ?] is
      [Z.ltb] on instants, and [datetime.fromisoformat] reads back the
      instant that was written.
    - Effects are explicit: a handler is a function from the [world] (table,
      job queue, count of Bot API calls, history of effects) to an outcome
      and the next world.  A raised exception keeps the mutations made before
      it, as in Python.
    - What the process reads from outside is an argument: the fresh
      [uuid4()], the readings of [datetime.now], and whether the k-th Bot API
      call goes through.
    - The Flask health-check thread of [bot.py] is not part of the
      scheduler and is left out. *)

From Stdlib Require Import ZArith List String Ascii Bool Lia Arith.
From Stdlib Require Import DecimalString.
From Stdlib Require DecimalZ.
Import ListNotations.

Open Scope string_scope.
Open Scope Z_scope.

(** ** Python built-ins the handlers call *)

Module Py.

(** [str(n)] for an [int]. *)
Definition str (n : Z) : string := NilZero.string_of_int (Z.to_int n).

Definition digit_val (c : ascii) : option Z :=
  let n := nat_of_ascii c in
  if (48 <=? n)%nat && (n <=? 57)%nat then Some (Z.of_nat (n - 48)) else None.

Definition is_ascii_digit (c : ascii) : bool :=
  match digit_val c with Some _ => true | None => false end.

Fixpoint all_digits (s : string) : bool :=
  match s with
  | EmptyString => true
  | String c rest => is_ascii_digit c && all_digits rest
  end.

(** [s.isdigit()]: at least one character and all of them digits.  Only the
    ASCII digits are modelled. *)
Definition isdigit (s : string) : bool :=
  match s with
  | EmptyString => false
  | String _ _ => all_digits s
  end.

(** Digits of a decimal literal as [int()] reads them: single underscores
    are allowed between two digits.  [prev] tells whether the previous
    character was a digit. *)
Fixpoint int_digits (acc : Z) (prev : bool) (s : string) : option Z :=
  match s with
  | EmptyString => if prev then Some acc else None
  | String c rest =>
      match digit_val c with
      | Some d => int_digits (10 * acc + d) true rest
      | None =>
          if Ascii.eqb c "_"%char && prev then int_digits acc false rest
          else None
      end
  end.

(** [int(s)] in base ten; [None] stands for [ValueError].  The words of
    [context.args] come from [str.split()], so they hold no white space and
    the stripping [int()] does is not modelled; only ASCII digits are. *)
Definition int (s : string) : option Z :=
  match s with
  | String "-"%char rest => option_map Z.opp (int_digits 0 false rest)
  | String "+"%char rest => int_digits 0 false rest
  | _ => int_digits 0 false s
  end.

(** [sep.join(words)]. *)
Definition join (sep : string) (words : list string) : string :=
  String.concat sep words.

(** A value used as a condition: [None] and the empty string are false. *)
Definition truthy (v : option string) : bool :=
  match v with
  | None => false
  | Some s => negb (String.eqb s "")
  end.

(** microseconds of [timedelta(seconds=n)] *)
Definition seconds (n : Z) : Z := n * 1000000.

(** [datetime.min] and [datetime.max] (UTC), in microseconds since the
    epoch: 0001-01-01 00:00:00 and 9999-12-31 23:59:59.999999. *)
Definition datetime_min : Z := -62135596800 * 1000000.
Definition datetime_max : Z := 253402300799 * 1000000 + 999999.

End Py.

(** ** Outcomes and the state-and-exception monad *)

Inductive exn : Type :=
| ValueError (msg : string)
| IndexError
| OverflowError
| IntegrityError
| TelegramError.

Inductive result (A : Type) : Type :=
| Ok (a : A)
| Raise (e : exn).
Arguments Ok {A} a.
Arguments Raise {A} e.

Definition is_ok {A : Type} (r : result A) : bool :=
  match r with Ok _ => true | Raise _ => false end.

(** A computation over a world [W]: the outcome and the world it leaves.
    The world is returned on both outcomes. *)
Definition M (W A : Type) : Type := W -> result A * W.

Definition ret {W A : Type} (a : A) : M W A := fun w => (Ok a, w).

Definition bind {W A B : Type} (m : M W A) (k : A -> M W B) : M W B :=
  fun w =>
    match m w with
    | (Ok a, w') => k a w'
    | (Raise e, w') => (Raise e, w')
    end.

Definition raise {W A : Type} (e : exn) : M W A := fun w => (Raise e, w).

(** [try: body except (IndexError, ValueError) as e: handler(e)] *)
Definition caught (e : exn) : bool :=
  match e with
  | ValueError _ | IndexError => true
  | _ => false
  end.

Definition try_except {W A : Type} (body : M W A) (handler : exn -> M W A)
  : M W A :=
  fun w =>
    match body w with
    | (Ok a, w') => (Ok a, w')
    | (Raise e, w') => if caught e then handler e w' else (Raise e, w')
    end.

Declare Scope monad_scope.
Delimit Scope monad_scope with monad.
Notation "x <- m ;; k" := (bind m (fun x => k))
  (at level 61, m at next level, right associativity) : monad_scope.
Notation "m ;; k" := (bind m (fun _ => k))
  (at level 61, right associativity) : monad_scope.
Open Scope monad_scope.

(** [if cond: raise e] *)
Definition raise_if {W : Type} (cond : bool) (e : exn) : M W unit :=
  if cond then raise e else ret tt.

(** [xs[i]]; out of range is [IndexError]. *)
Definition index {W A : Type} (xs : list A) (i : nat) : M W A :=
  match nth_error xs i with
  | Some x => ret x
  | None => raise IndexError
  end.

(** [int(s)] with its [ValueError]. *)
Definition int_of {W : Type} (s : string) : M W Z :=
  match Py.int s with
  | Some n => ret n
  | None => raise (ValueError "invalid literal for int() with base 10")
  end.

(** [now + timedelta(microseconds=delta)]; a date outside
    [datetime.min .. datetime.max] is [OverflowError]. *)
Definition datetime_add {W : Type} (now delta : Z) : M W Z :=
  let t := now + delta in
  if (Py.datetime_min <=? t) && (t <=? Py.datetime_max) then ret t
  else raise OverflowError.

(** ** Texts the bots send *)

Inductive text : Type :=
| TxtReminderHeader                 (* "Reminder from Scheduler Bot ..." *)
| TxtPlain (s : string)             (* a stored command, sent as it is *)
| TxtUnderstood (delay_seconds : Z) (* "Understood! I will remind you in ..." *)
| TxtInvalidFormat                  (* "Invalid format. Please use ..." *)
| TxtUsage                          (* "Usage: /set <seconds> <your message>" *)
| TxtDelayTooSmall                  (* "Sorry, the delay must be at least 1 second." *)
| TxtGotIt (delay : Z)              (* "Got it! I will remind you in ..." *)
| TxtReminder (s : string)          (* "Reminder: ..." *)
| TxtWelcome.                       (* "Hi! I'm a simple reminder bot. ..." *)

Inductive level : Type := Info | Warning | Error | Critical.

Inductive log_msg : Type :=
| LogDbInitialized
| LogAdded (job_id : string)
| LogRemoved (job_id : string)
| LogExecuted (job_id : string)
| LogUnauthorized (user_id : Z)
| LogParseError (e : exn)
| LogMissingConfig
| LogRestored (count : Z)
| LogRunning
| LogSetReminder (chat_id : Z) (delay : Z)
| LogSentReminder (chat_id : option Z) (s : string).

(** ** bot.py: the persistent scheduler *)

Module Bot.

(** One row of the table [schedules]; [job_id] is the primary key. *)
Record Row : Type := mkRow {
  job_id : string;
  chat_id : Z;
  command_to_send : string;
  details_command_to_send : string;
  run_at : Z
}.

(** The [data] dictionary handed to [run_once]. *)
Record JobData : Type := mkJobData {
  data_chat_id : Z;
  data_command : string;
  data_details_command : string;
  data_job_id : string
}.

(** A job of the job queue.  The callback is always [alarm].  [when] is the
    delay in microseconds: [schedule] passes whole seconds, [main] passes
    [(run_at - now).total_seconds()], whose conversion to a float is not
    modelled.  [job_chat_id] is the attribute [job.chat_id], which is the
    [chat_id=] keyword of [run_once]. *)
Record Job : Type := mkJob {
  when : Z;
  data : JobData;
  name : string;
  job_chat_id : option Z
}.

Inductive event : Type :=
| EvRunOnce (j : Job)                         (* a timer was armed *)
| EvInsert (r : Row)                          (* INSERT committed *)
| EvDelete (id : string)                      (* DELETE committed *)
| EvSend (chat : option Z) (t : text)         (* bot.send_message returned *)
| EvReply (t : text)                          (* message.reply_text returned *)
| EvApiError                                  (* a Bot API call raised *)
| EvLog (l : level) (m : log_msg).

Record world : Type := mkWorld {
  schedules : list Row;
  job_queue : list Job;
  api_calls : nat;
  history : list event
}.

Record config : Type := mkConfig {
  BOT_TOKEN : option string;
  ADMIN_USERID : option string
}.

Record Update : Type := mkUpdate { effective_user_id : Z }.
Record Context : Type := mkContext { args : list string }.

Definition emit (e : event) : M world unit :=
  fun w => (Ok tt, mkWorld (schedules w) (job_queue w) (api_calls w)
                           (history w ++ [e])).

Definition log (l : level) (m : log_msg) : M world unit := emit (EvLog l m).

Definition set_schedules (rows : list Row) : M world unit :=
  fun w => (Ok tt, mkWorld rows (job_queue w) (api_calls w) (history w)).

Definition get_schedules : M world (list Row) :=
  fun w => (Ok (schedules w), w).

Definition has_id (id : string) (r : Row) : bool := String.eqb (job_id r) id.

(** *** Database functions *)

Definition init_db : M world unit := log Info LogDbInitialized.

(** [INSERT INTO schedules ... VALUES (?, ?, ?, ?, ?)]; a second row with
    the same primary key is refused with [sqlite3.IntegrityError]. *)
Definition add_schedule_to_db (id : string) (chat : Z)
    (command details_command : string) (run_at_time : Z) : M world unit :=
  rows <- get_schedules ;;
  raise_if (existsb (has_id id) rows) IntegrityError ;;
  let r := mkRow id chat command details_command run_at_time in
  set_schedules (rows ++ [r]) ;;
  emit (EvInsert r) ;;
  log Info (LogAdded id).

(** [DELETE FROM schedules WHERE job_id = ?] *)
Definition remove_schedule_from_db (id : string) : M world unit :=
  rows <- get_schedules ;;
  set_schedules (filter (fun r => negb (has_id id r)) rows) ;;
  emit (EvDelete id) ;;
  log Info (LogRemoved id).

(** [SELECT * FROM schedules WHERE run_at > ?] with [datetime.now] read
    as [utcnow]. *)
Definition get_pending_schedules (utcnow : Z) : M world (list Row) :=
  rows <- get_schedules ;;
  ret (filter (fun r => utcnow <? run_at r) rows).

(** *** The job queue and the Bot API *)

(** [job_queue.run_once(alarm, when=..., data=..., name=...)]: no
    [chat_id=] is passed, so the job's [chat_id] attribute is [None].  The
    queue takes any delay and any name; names need not be unique. *)
Definition run_once (when_ : Z) (data_ : JobData) (name_ : string)
  : M world unit :=
  let j := mkJob when_ data_ name_ None in
  fun w => (Ok tt, mkWorld (schedules w) (job_queue w ++ [j]) (api_calls w)
                           (history w ++ [EvRunOnce j])).

Section Handlers.

(** Whether the k-th call of the Bot API goes through. *)
Variable api_ok : nat -> bool.
Variable cfg : config.

Definition api_call (done : event) : M world unit :=
  fun w =>
    let k := api_calls w in
    if api_ok k
    then (Ok tt, mkWorld (schedules w) (job_queue w) (S k)
                         (history w ++ [done]))
    else (Raise TelegramError,
          mkWorld (schedules w) (job_queue w) (S k)
                  (history w ++ [EvApiError])).

Definition send_message (chat : option Z) (t : text) : M world unit :=
  api_call (EvSend chat t).

Definition reply_text (t : text) : M world unit := api_call (EvReply t).

(** *** Bot functions *)

Definition alarm (job : Job) : M world unit :=
  send_message (job_chat_id job) TxtReminderHeader ;;
  send_message (job_chat_id job) (TxtPlain (data_command (data job))) ;;
  send_message (job_chat_id job) (TxtPlain (data_details_command (data job))) ;;
  remove_schedule_from_db (data_job_id (data job)) ;;
  log Info (LogExecuted (data_job_id (data job))).

(** [str(user_id) != ADMIN_USERID] *)
Definition not_admin (user_id : Z) : bool :=
  match ADMIN_USERID cfg with
  | Some a => negb (String.eqb (Py.str user_id) a)
  | None => true
  end.

Definition schedule (update : Update) (context : Context)
    (uuid4 : string) (utcnow : Z) : M world unit :=
  let user_id := effective_user_id update in
  if not_admin user_id then log Warning (LogUnauthorized user_id)
  else
    try_except
      (raise_if (negb (Nat.eqb (List.length (args context)) 3))
                (ValueError "Incorrect number of arguments.") ;;
       arg0 <- index (args context) 0 ;;
       delay_seconds <- int_of arg0 ;;
       command_name <- index (args context) 1 ;;
       target_user_id <- index (args context) 2 ;;
       raise_if (negb (String.eqb command_name "/freecredential")
                 || negb (Py.isdigit target_user_id))
                (ValueError "Invalid command format.") ;;
       let command := "/freecredential " ++ target_user_id in
       let details_command := "/seedetails " ++ target_user_id in
       let id := uuid4 in
       run_once (Py.seconds delay_seconds)
                (mkJobData user_id command details_command id) id ;;
       run_at_time <- datetime_add utcnow (Py.seconds delay_seconds) ;;
       add_schedule_to_db id user_id command details_command run_at_time ;;
       reply_text (TxtUnderstood delay_seconds))
      (fun e =>
         log Error (LogParseError e) ;;
         reply_text TxtInvalidFormat).

(** The loop of [main] over the pending rows; it returns [restored_count]. *)
Fixpoint main_restore (now : Z) (pending_jobs : list Row)
    (restored_count : Z) : M world Z :=
  match pending_jobs with
  | [] => ret restored_count
  | job_data :: rest =>
      let id := job_id job_data in
      let delay := run_at job_data - now in
      let delay := if delay <? 0 then 0 else delay in
      run_once delay
               (mkJobData (chat_id job_data) (command_to_send job_data)
                          (details_command_to_send job_data) id) id ;;
      main_restore now rest (restored_count + 1)
  end.

(** [main] up to [run_polling]: [utcnow_query] is the clock reading inside
    [get_pending_schedules], [utcnow] the one [main] takes afterwards. *)
Definition main (utcnow_query utcnow : Z) : M world unit :=
  if negb (Py.truthy (BOT_TOKEN cfg)) || negb (Py.truthy (ADMIN_USERID cfg))
  then log Critical LogMissingConfig
  else
    init_db ;;
    pending_jobs <- get_pending_schedules utcnow_query ;;
    restored_count <- main_restore utcnow pending_jobs 0 ;;
    (if 0 <? restored_count then log Info (LogRestored restored_count)
     else ret tt) ;;
    log Info LogRunning.

(** The command handlers [main] registers: [/schedule] and [/start] both
    run [schedule]. *)
Definition handlers
  : list (string * (Update -> Context -> string -> Z -> M world unit)) :=
  [("schedule", schedule); ("start", schedule)].

(** What the application does with a command: the first handler registered
    under that name runs; a command without handler is dropped. *)
Definition dispatch (command : string) (update : Update) (context : Context)
    (uuid4 : string) (utcnow : Z) : M world unit :=
  match find (fun h => String.eqb (fst h) command) handlers with
  | Some h => snd h update context uuid4 utcnow
  | None => ret tt
  end.

End Handlers.

Definition empty_world : world := mkWorld [] [] 0%nat [].

End Bot.

(** ** bot1.py: the in-memory reminder bot *)

Module Bot1.

Record Job : Type := mkJob {
  when : Z;
  data : string;
  job_chat_id : option Z
}.

Inductive event : Type :=
| EvRunOnce (j : Job)
| EvReply (t : text)
| EvApiError
| EvLog (l : level) (m : log_msg).

Record world : Type := mkWorld {
  job_queue : list Job;
  api_calls : nat;
  history : list event
}.

Record Update : Type := mkUpdate { effective_message_chat_id : Z }.
Record Context : Type := mkContext { args : list string }.

Definition log (l : level) (m : log_msg) : M world unit :=
  fun w => (Ok tt, mkWorld (job_queue w) (api_calls w)
                           (history w ++ [EvLog l m])).

(** [job_queue.run_once(alarm, delay, data=reminder_text, chat_id=chat_id)] *)
Definition run_once (when_ : Z) (data_ : string) (chat : Z) : M world unit :=
  let j := mkJob when_ data_ (Some chat) in
  fun w => (Ok tt, mkWorld (job_queue w ++ [j]) (api_calls w)
                           (history w ++ [EvRunOnce j])).

Section Handlers.

Variable api_ok : nat -> bool.

Definition reply_text (t : text) : M world unit :=
  fun w =>
    let k := api_calls w in
    if api_ok k
    then (Ok tt, mkWorld (job_queue w) (S k) (history w ++ [EvReply t]))
    else (Raise TelegramError,
          mkWorld (job_queue w) (S k) (history w ++ [EvApiError])).

Definition set_reminder (update : Update) (context : Context)
  : M world unit :=
  let chat_id := effective_message_chat_id update in
  try_except
    (if (List.length (args context) <? 2)%nat then reply_text TxtUsage
     else
       arg0 <- index (args context) 0 ;;
       delay <- int_of arg0 ;;
       if delay <? 1 then reply_text TxtDelayTooSmall
       else
         let reminder_text := Py.join " " (tl (args context)) in
         run_once (Py.seconds delay) reminder_text chat_id ;;
         reply_text (TxtGotIt delay) ;;
         log Info (LogSetReminder chat_id delay))
    (fun _ => reply_text TxtUsage).

End Handlers.

End Bot1.

(** ** Vocabulary of the specification *)

Module Spec.
Import Bot.

(** The events a run appended to the history. *)
Definition events_since (w w' : world) : list event :=
  skipn (List.length (history w)) (history w').

(** Write-through order: reading a history from its start, the INSERT of
    job [id] is met before any timer named [id] is armed. *)
Fixpoint persisted_before_armed (id : string) (h : list event) : bool :=
  match h with
  | [] => true
  | EvInsert r :: rest =>
      if String.eqb (job_id r) id then true
      else persisted_before_armed id rest
  | EvRunOnce j :: rest =>
      if String.eqb (name j) id then false
      else persisted_before_armed id rest
  | _ :: rest => persisted_before_armed id rest
  end.

(** A reply reached the requester. *)
Definition replied (h : list event) : bool :=
  existsb (fun e => match e with EvReply _ => true | _ => false end) h.

(** A DELETE was committed. *)
Definition deleted (h : list event) : bool :=
  existsb (fun e => match e with EvDelete _ => true | _ => false end) h.

(** The request errors of a schedule command: unauthorized requester,
    wrong argument count, malformed delay, invalid command format. *)
Inductive request_error (cfg : config) (update : Update) (context : Context)
  : Prop :=
| Unauthorized :
    not_admin cfg (effective_user_id update) = true ->
    request_error cfg update context
| WrongArgumentCount :
    List.length (args context) <> 3%nat ->
    request_error cfg update context
| MalformedDelay : forall a0 c t,
    args context = [a0; c; t] -> Py.int a0 = None ->
    request_error cfg update context
| InvalidCommandFormat : forall a0 c t,
    args context = [a0; c; t] ->
    c <> "/freecredential" \/ Py.isdigit t = false ->
    request_error cfg update context.

(** A well-formed request of the admin: delay [d], target [t]. *)
Definition accepted (cfg : config) (update : Update) (context : Context)
    (d : Z) (t : string) : Prop :=
  not_admin cfg (effective_user_id update) = false /\
  exists a0, args context = [a0; "/freecredential"; t] /\
             Py.int a0 = Some d /\ Py.isdigit t = true.

(** The timer a row is restored to at time [now]. *)
Definition restored_job (now : Z) (r : Row) : Job :=
  mkJob (Z.max 0 (run_at r - now))
        (mkJobData (chat_id r) (command_to_send r)
                   (details_command_to_send r) (job_id r))
        (job_id r) None.

(** A configuration [main] accepts. *)
Definition configured (cfg : config) : bool :=
  Py.truthy (BOT_TOKEN cfg) && Py.truthy (ADMIN_USERID cfg).

(** The timer and the row an accepted request of [user] with delay [d]
    and target [t] gives rise to, under the id [uuid4] at time [utcnow]. *)
Definition submitted_job (user : Z) (d : Z) (t uuid4 : string) : Job :=
  mkJob (Py.seconds d)
        (mkJobData user ("/freecredential " ++ t) ("/seedetails " ++ t) uuid4)
        uuid4 None.

Definition submitted_row (user : Z) (d : Z) (t uuid4 : string) (utcnow : Z)
  : Row :=
  mkRow uuid4 user ("/freecredential " ++ t) ("/seedetails " ++ t)
        (utcnow + Py.seconds d).

(** [run_at] can be represented as a [datetime]. *)
Definition in_datetime_range (t : Z) : bool :=
  (Py.datetime_min <=? t) && (t <=? Py.datetime_max).

End Spec.

(** ** Concrete inputs *)

Module Sample.
Import Bot.

(** Every Bot API call goes through. *)
Definition up (_ : nat) : bool := true.
(** The Bot API is unreachable. *)
Definition down (_ : nat) : bool := false.

Definition cfg : config := mkConfig (Some "token") (Some "42").

Definition admin : Update := mkUpdate 42.

Definition row1 : Row :=
  mkRow "j1" 42 "/freecredential 7" "/seedetails 7" 1000.
Definition row2 : Row :=
  mkRow "j2" 42 "/freecredential 8" "/seedetails 8" 10000000.
Definition job1 : Job :=
  mkJob 0 (mkJobData 42 "/freecredential 7" "/seedetails 7" "j1") "j1" None.

(** One job in the table, its timer not armed (the process just started). *)
Definition w_stored : world := mkWorld [row1] [] 0%nat [].
Definition w_two : world := mkWorld [row1; row2] [] 0%nat [].
(** One job pending: in the table and armed. *)
Definition w_pending : world := mkWorld [row1] [job1] 0%nat [].

(** [/schedule 60 /freecredential 777] *)
Definition ctx_ok : Context := mkContext ["60"; "/freecredential"; "777"].
(** [/schedule -5 /freecredential 777] *)
Definition ctx_negative : Context :=
  mkContext ["-5"; "/freecredential"; "777"].

End Sample.

(** ** Vocabulary of the invariants *)

Module Inv.
Import Bot.

(** The primary key of [schedules]: no two rows share a [job_id]. *)
Definition unique_ids (w : world) : Prop :=
  NoDup (map job_id (schedules w)).

(** The chats the [send_message] calls of a history were addressed to. *)
Definition sent_to (h : list event) : list (option Z) :=
  flat_map (fun e => match e with EvSend c _ => [c] | _ => [] end) h.

(** The texts the [send_message] calls of a history carried. *)
Definition sent_texts (h : list event) : list text :=
  flat_map (fun e => match e with EvSend _ t => [t] | _ => [] end) h.

(** The rows [get_pending_schedules] returns at [asOf]. *)
Definition pending_at (asOf : Z) (w : world) : list Row :=
  filter (fun r => asOf <? run_at r) (schedules w).

(** The events of [main] between the database log and the final log: one
    armed timer per pending row, then the count if it is positive. *)
Definition restore_events (now : Z) (pending : list Row) : list event :=
  (map (fun r => EvRunOnce (Spec.restored_job now r)) pending ++
   (if 0 <? Z.of_nat (List.length pending)
    then [EvLog Info (LogRestored (Z.of_nat (List.length pending)))]
    else []))%list.


(** The job [set_reminder] arms for an accepted request. *)
Definition reminder_job (update : Bot1.Update) (context : Bot1.Context)
    (d : Z) : Bot1.Job :=
  Bot1.mkJob (Py.seconds d) (Py.join " " (tl (Bot1.args context)))
             (Some (Bot1.effective_message_chat_id update)).

End Inv.

(** ** More concrete inputs *)

Module Cases.

(** [/schedule 999999999999 /freecredential 777]: some 31 000 years. *)
Definition ctx_far : Bot.Context :=
  Bot.mkContext ["999999999999"; "/freecredential"; "777"].

(** The timer armed for [Sample.ctx_ok] under the id "u1". *)
Definition job_u1 : Bot.Job := Spec.submitted_job 42 60 "777" "u1".

Definition chat7 : Bot1.Update := Bot1.mkUpdate 7.
Definition idle : Bot1.world := Bot1.mkWorld [] 0%nat [].
(** [/set 300 Go to the meeting] *)
Definition set_ok : Bot1.Context :=
  Bot1.mkContext ["300"; "Go"; "to"; "the"; "meeting"].
(** [/set 0 now] *)
Definition set_zero : Bot1.Context := Bot1.mkContext ["0"; "now"].

End Cases.

(** * Properties *)

(** ** The built-ins on concrete input *)

Example str_42 : Py.str 42 = "42". Proof. reflexivity. Qed.
Example str_0 : Py.str 0 = "0". Proof. reflexivity. Qed.
Example str_neg : Py.str (-7) = "-7". Proof. reflexivity. Qed.
Example int_60 : Py.int "60" = Some 60. Proof. reflexivity. Qed.
Example int_neg5 : Py.int "-5" = Some (-5). Proof. reflexivity. Qed.
Example int_plus : Py.int "+007" = Some 7. Proof. reflexivity. Qed.
Example int_underscore : Py.int "1_000" = Some 1000. Proof. reflexivity. Qed.
Example int_bad1 : Py.int "1__0" = None. Proof. reflexivity. Qed.
Example int_bad2 : Py.int "12a" = None. Proof. reflexivity. Qed.
Example int_bad3 : Py.int "-" = None. Proof. reflexivity. Qed.
Example int_bad4 : Py.int "5_" = None. Proof. reflexivity. Qed.
Example isdigit_ok : Py.isdigit "12345" = true. Proof. reflexivity. Qed.
Example isdigit_empty : Py.isdigit "" = false. Proof. reflexivity. Qed.
Example isdigit_sign : Py.isdigit "-5" = false. Proof. reflexivity. Qed.

(** Running a handler symbolically: unfold the monad and the primitive
    effects, then reduce the record projections. *)
Ltac mrun :=
  cbv beta iota zeta delta
      [bind ret raise raise_if try_except index int_of datetime_add
       Bot.run_once Bot.add_schedule_to_db Bot.remove_schedule_from_db
       Bot.get_schedules Bot.set_schedules Bot.log Bot.emit Bot.init_db
       Bot.reply_text Bot.send_message Bot.api_call];
  cbn [Bot.schedules Bot.job_queue Bot.api_calls Bot.history
       nth_error List.length Nat.eqb negb orb andb caught fst snd].

(** ** The durable store *)

Section Store.
Import Bot Spec.

Lemma events_since_app (w w' : world) (new : list event) :
  history w' = (history w ++ new)%list -> events_since w w' = new.
Proof.
  intros H. unfold events_since. rewrite H.
  rewrite skipn_app, skipn_all, Nat.sub_diag. reflexivity.
Qed.

Lemma filter_absent (id : string) (rows : list Row) :
  existsb (has_id id) rows = false ->
  filter (fun r => negb (has_id id r)) rows = rows.
Proof.
  induction rows as [|r rows IH]; simpl; intros H; [reflexivity|].
  apply orb_false_iff in H. destruct H as [Hr Hrows].
  rewrite Hr. simpl. f_equal. apply IH, Hrows.
Qed.

Lemma filter_twice (id : string) (rows : list Row) :
  filter (fun r => negb (has_id id r))
         (filter (fun r => negb (has_id id r)) rows)
  = filter (fun r => negb (has_id id r)) rows.
Proof.
  induction rows as [|r rows IH]; simpl; [reflexivity|].
  destruct (has_id id r) eqn:E; simpl; [exact IH|].
  rewrite E. simpl. f_equal. exact IH.
Qed.

Lemma filter_removes (id : string) (rows : list Row) :
  existsb (has_id id) (filter (fun r => negb (has_id id r)) rows) = false.
Proof.
  induction rows as [|r rows IH]; simpl; [reflexivity|].
  destruct (has_id id r) eqn:E; simpl; [exact IH|].
  rewrite E. exact IH.
Qed.

(** What [remove_schedule_from_db] does, in one equation. *)
Lemma remove_schedule_from_db_eq (id : string) (w : world) :
  remove_schedule_from_db id w =
  (Ok tt,
   mkWorld (filter (fun r => negb (has_id id r)) (schedules w))
           (job_queue w) (api_calls w)
           (history w ++ [EvDelete id; EvLog Info (LogRemoved id)])).
Proof.
  unfold remove_schedule_from_db, bind, get_schedules, set_schedules, log,
    emit. simpl. rewrite <- app_assoc. reflexivity.
Qed.

(** C2. The accessor [get_pending_schedules], asked at time [asOf], leaves
    the world as it is and returns the stored rows whose [run_at] is
    strictly greater than [asOf], and only those: a row is in the result
    exactly when it is stored and [asOf < run_at]; rows with [run_at] equal
    to or before [asOf] are left out. *)
Theorem get_pending_schedules_strictly_future (asOf : Z) (w : world) :
  exists rows,
    get_pending_schedules asOf w = (Ok rows, w) /\
    rows = filter (fun r => asOf <? run_at r) (schedules w) /\
    (forall r, In r rows <-> In r (schedules w) /\ asOf < run_at r) /\
    (forall r, In r (schedules w) -> run_at r <= asOf -> ~ In r rows).
Proof.
  exists (filter (fun r => asOf <? run_at r) (schedules w)).
  split; [reflexivity|]. split; [reflexivity|]. split.
  - intros r. rewrite filter_In, Z.ltb_lt. reflexivity.
  - intros r _ Hle Hin. apply filter_In in Hin.
    destruct Hin as [_ Hlt]. apply Z.ltb_lt in Hlt. lia.
Qed.

(** C7. [remove_schedule_from_db] never fails; it leaves the table without
    any row of that id; when no row has the id the table is unchanged (a
    no-op that succeeds); and deleting a second time succeeds and leaves
    the table as the first deletion left it. *)
Theorem remove_schedule_from_db_idempotent (id : string) (w : world) :
  let once := remove_schedule_from_db id w in
  let twice := remove_schedule_from_db id (snd once) in
  fst once = Ok tt /\
  existsb (has_id id) (schedules (snd once)) = false /\
  (existsb (has_id id) (schedules w) = false ->
   schedules (snd once) = schedules w) /\
  fst twice = Ok tt /\
  schedules (snd twice) = schedules (snd once).
Proof.
  cbv zeta. rewrite !remove_schedule_from_db_eq. simpl.
  split; [reflexivity|]. split; [apply filter_removes|].
  split; [apply filter_absent|]. split; [reflexivity|].
  apply filter_twice.
Qed.

End Store.

(** Deleting an id that is not stored, on a concrete table. *)
Lemma remove_schedule_from_db_idempotent_witness :
  existsb (Bot.has_id "zz") (Bot.schedules Sample.w_stored) = false /\
  fst (Bot.remove_schedule_from_db "zz" Sample.w_stored) = Ok tt /\
  Bot.schedules (snd (Bot.remove_schedule_from_db "zz" Sample.w_stored))
  = Bot.schedules Sample.w_stored.
Proof.
  destruct (remove_schedule_from_db_idempotent "zz" Sample.w_stored)
    as (Hok & _ & Hnoop & _ & _).
  split; [reflexivity|]. split; [exact Hok|].
  apply Hnoop. reflexivity.
Defined.

(** ** Recovery at start-up *)

Section Recovery.
Import Bot Spec.

Variable cfg : config.

Lemma clamp_is_max (d : Z) : (if d <? 0 then 0 else d) = Z.max 0 d.
Proof. destruct (Z.ltb_spec d 0); lia. Qed.

(** The loop arms one timer per row it is given, in order, and counts
    them. *)
Lemma main_restore_eq (now : Z) (pending : list Row) :
  forall (count : Z) (w : world),
    main_restore now pending count w =
    (Ok (count + Z.of_nat (List.length pending)),
     mkWorld (schedules w)
             (job_queue w ++ map (restored_job now) pending)
             (api_calls w)
             (history w ++ map (fun r => EvRunOnce (restored_job now r))
                               pending)).
Proof.
  induction pending as [|r rest IH]; intros count w.
  - simpl. unfold ret. rewrite Z.add_0_r, !app_nil_r.
    destruct w; reflexivity.
  - cbn [main_restore]. unfold bind at 1. unfold run_once at 1.
    rewrite IH. cbn [schedules job_queue api_calls history].
    rewrite clamp_is_max. fold (restored_job now r).
    rewrite <- !app_assoc. cbn [map app List.length].
    do 2 f_equal. lia.
Qed.

Lemma configured_guard :
  configured cfg = true ->
  negb (Py.truthy (BOT_TOKEN cfg)) || negb (Py.truthy (ADMIN_USERID cfg))
  = false.
Proof.
  unfold configured. intros H. apply andb_true_iff in H.
  destruct H as [-> ->]. reflexivity.
Qed.

(** With a token and an admin id configured, [main] leaves the table
    alone and arms one timer for each row its query returned. *)
Lemma main_eq (utcnow_query utcnow : Z) (w : world) :
  configured cfg = true ->
  exists h,
    main cfg utcnow_query utcnow w =
    (Ok tt,
     mkWorld (schedules w)
             (job_queue w ++
              map (restored_job utcnow)
                  (filter (fun r => utcnow_query <? run_at r) (schedules w)))
             (api_calls w) h).
Proof.
  intros Hcfg. unfold main. rewrite (configured_guard Hcfg).
  unfold init_db, log, emit, get_pending_schedules, get_schedules, ret.
  repeat (unfold bind; cbv beta iota). rewrite main_restore_eq.
  cbn [schedules job_queue api_calls history].
  destruct (0 <? _); eexists; reflexivity.
Qed.

(** The number of timers [main] arms is the number of stored rows with
    [run_at] after the query time. *)
Lemma main_rearms_future_rows (utcnow_query utcnow : Z) (w : world) :
  configured cfg = true ->
  List.length (job_queue (snd (main cfg utcnow_query utcnow w)))
  = (List.length (job_queue w) +
     List.length (filter (fun r => (utcnow_query <? run_at r)%Z)
                         (schedules w)))%nat.
Proof.
  intros Hcfg. destruct (main_eq utcnow_query utcnow w Hcfg) as [h ->].
  simpl. rewrite length_app, length_map. reflexivity.
Qed.


End Recovery.


(** C1. One job is stored with [run_at] = 1 ms and the process restarts at
    t = 2 ms: the row is still in the table, the scan returns nothing and
    [main] arms no timer, although one job is pending. *)
Theorem main_drops_overdue_job :
  Bot.schedules Sample.w_stored = [Sample.row1] /\
  Bot.get_pending_schedules 2000 Sample.w_stored = (Ok [], Sample.w_stored) /\
  fst (Bot.main Sample.cfg 2000 2000 Sample.w_stored) = Ok tt /\
  Bot.job_queue (snd (Bot.main Sample.cfg 2000 2000 Sample.w_stored)) = [] /\
  Bot.schedules (snd (Bot.main Sample.cfg 2000 2000 Sample.w_stored))
  = [Sample.row1].
Proof. repeat split. Qed.

(** ** The fire callback *)

Section Fire.
Import Bot Spec.

Variable api_ok : nat -> bool.

Ltac history_tail :=
  apply events_since_app; cbn [history]; rewrite <- ?app_assoc; reflexivity.

(** C6. [alarm] never touches the job queue.  When the three
    [send_message] calls all return, it succeeds, the row of the job is
    deleted, and the DELETE comes after the three sends.  When one of them
    raises, [alarm] raises with it, no DELETE is issued, and the table is
    left exactly as it was, so the row stays for the next start-up. *)
Theorem alarm_deletes_only_after_dispatch (job : Job) (w : world) :
  let n := api_calls w in
  let id := data_job_id (data job) in
  let res := fst (alarm api_ok job w) in
  let w' := snd (alarm api_ok job w) in
  job_queue w' = job_queue w /\
  if api_ok n && api_ok (S n) && api_ok (S (S n))
  then res = Ok tt /\
       schedules w' = filter (fun r => negb (has_id id r)) (schedules w) /\
       events_since w w' =
         [EvSend (job_chat_id job) TxtReminderHeader;
          EvSend (job_chat_id job) (TxtPlain (data_command (data job)));
          EvSend (job_chat_id job)
                 (TxtPlain (data_details_command (data job)));
          EvDelete id;
          EvLog Info (LogRemoved id);
          EvLog Info (LogExecuted id)]
  else res = Raise TelegramError /\
       schedules w' = schedules w /\
       deleted (events_since w w') = false.
Proof.
  cbv zeta.
  destruct (alarm api_ok job w) as [res w'] eqn:Run. cbn [fst snd].
  revert Run.
  unfold alarm, send_message, api_call, remove_schedule_from_db,
    get_schedules, set_schedules, log, emit, bind.
  cbv beta iota. cbn [schedules job_queue api_calls history].
  destruct (api_ok (api_calls w)); cbv beta iota;
    cbn [schedules job_queue api_calls history andb];
    [destruct (api_ok (S (api_calls w))); cbv beta iota;
     cbn [schedules job_queue api_calls history andb];
     [destruct (api_ok (S (S (api_calls w)))); cbv beta iota;
      cbn [schedules job_queue api_calls history andb]| ]| ];
    intros Run; injection Run as <- <-;
    cbn [schedules job_queue api_calls history];
    (split; [reflexivity|]); (split; [reflexivity|]);
    (split; [reflexivity|]).
  - history_tail.
  - erewrite events_since_app
      by (cbn [history]; rewrite <- ?app_assoc; reflexivity).
    reflexivity.
  - erewrite events_since_app
      by (cbn [history]; rewrite <- ?app_assoc; reflexivity).
    reflexivity.
  - erewrite events_since_app by (cbn [history]; reflexivity).
    reflexivity.
Qed.

End Fire.

(** The Bot API is unreachable when the job fires: the row is kept. *)
Example alarm_sink_down :
  Bot.alarm Sample.down Sample.job1 Sample.w_pending
  = (Raise TelegramError,
     Bot.mkWorld [Sample.row1] [Sample.job1] 1%nat [Bot.EvApiError]).
Proof. reflexivity. Qed.

(** The three sends go through: the row is gone. *)
Example alarm_sink_up :
  Bot.schedules (snd (Bot.alarm Sample.up Sample.job1 Sample.w_pending)) = [].
Proof. reflexivity. Qed.

(** ** The schedule command *)

Section Submit.
Import Bot Spec.

Variable api_ok : nat -> bool.
Variable cfg : config.

(** Every request is either a request error or an accepted request. *)
Lemma request_error_or_accepted (update : Update) (context : Context) :
  request_error cfg update context \/
  exists d t, accepted cfg update context d t.
Proof.
  destruct (not_admin cfg (effective_user_id update)) eqn:Hadm.
  { left. apply Unauthorized, Hadm. }
  destruct (args context) as [|a0 [|c [|t [|x rest]]]] eqn:Hargs;
    try (left; apply WrongArgumentCount; rewrite Hargs; simpl; lia).
  destruct (Py.int a0) as [d|] eqn:Hint.
  2: { left. eapply MalformedDelay; eauto. }
  destruct (String.eqb_spec c "/freecredential") as [->|Hc].
  2: { left. eapply InvalidCommandFormat; eauto. }
  destruct (Py.isdigit t) eqn:Hdig.
  2: { left. eapply InvalidCommandFormat; eauto. }
  right. exists d, t. split; [exact Hadm|]. exists a0. auto.
Qed.

(** The two are exclusive. *)
Lemma accepted_not_request_error (update : Update) (context : Context)
    (d : Z) (t : string) :
  accepted cfg update context d t -> ~ request_error cfg update context.
Proof.
  intros (Hadm & a0 & Hargs & Hint & Hdig) Herr.
  destruct Herr as [H|H|b0 c t' Hargs' H|b0 c t' Hargs' H].
  - congruence.
  - rewrite Hargs in H. simpl in H. lia.
  - rewrite Hargs in Hargs'. congruence.
  - rewrite Hargs in Hargs'. injection Hargs' as <- <- <-.
    destruct H; congruence.
Qed.

(** The [except] branch: one error log, one reply. *)
Lemma except_branch_eq (e : exn) (w : world) :
  (log Error (LogParseError e) ;; reply_text api_ok TxtInvalidFormat) w =
  (if api_ok (api_calls w) then Ok tt else Raise TelegramError,
   mkWorld (schedules w) (job_queue w) (S (api_calls w))
           (history w ++ [EvLog Error (LogParseError e);
                          if api_ok (api_calls w)
                          then EvReply TxtInvalidFormat else EvApiError])).
Proof.
  unfold bind, log, emit, reply_text, api_call. cbv beta iota.
  cbn [schedules job_queue api_calls history].
  destruct (api_ok (api_calls w)); rewrite <- app_assoc; reflexivity.
Qed.

Lemma schedule_unauthorized_eq (update : Update) (context : Context)
    (uuid4 : string) (utcnow : Z) (w : world) :
  not_admin cfg (effective_user_id update) = true ->
  schedule api_ok cfg update context uuid4 utcnow w =
  (Ok tt,
   mkWorld (schedules w) (job_queue w) (api_calls w)
           (history w ++
            [EvLog Warning (LogUnauthorized (effective_user_id update))])).
Proof. intros H. unfold schedule. rewrite H. reflexivity. Qed.

(** A request of the admin that fails validation raises inside [try] and
    ends in the [except] branch, nothing else having happened. *)
Lemma schedule_rejected_eq (update : Update) (context : Context)
    (uuid4 : string) (utcnow : Z) (w : world) :
  not_admin cfg (effective_user_id update) = false ->
  request_error cfg update context ->
  exists e,
    schedule api_ok cfg update context uuid4 utcnow w =
    (log Error (LogParseError e) ;; reply_text api_ok TxtInvalidFormat) w.
Proof.
  intros Hadm Herr. unfold schedule. rewrite Hadm.
  destruct Herr as [H|H|a0 c t Hargs H|a0 c t Hargs H].
  - congruence.
  - exists (ValueError "Incorrect number of arguments.").
    unfold try_except, bind at 1, raise_if.
    destruct (Nat.eqb_spec (List.length (args context)) 3) as [E|_];
      [contradiction|]. reflexivity.
  - exists (ValueError "invalid literal for int() with base 10").
    rewrite Hargs. unfold try_except, bind, raise_if, index, int_of.
    cbn [List.length Nat.eqb negb nth_error ret]. rewrite H. reflexivity.
  - destruct (Py.int a0) as [d|] eqn:Hint.
    + exists (ValueError "Invalid command format.").
      rewrite Hargs. unfold try_except, bind, raise_if, index, int_of.
      cbn [List.length Nat.eqb negb nth_error ret]. rewrite Hint.
      cbv beta iota.
      assert (Hbad : negb (String.eqb c "/freecredential")
                     || negb (Py.isdigit t) = true).
      { destruct H as [Hc|Hd].
        - apply String.eqb_neq in Hc. rewrite Hc. reflexivity.
        - rewrite Hd. apply orb_true_r. }
      rewrite Hbad. reflexivity.
    + exists (ValueError "invalid literal for int() with base 10").
      rewrite Hargs. unfold try_except, bind, raise_if, index, int_of.
      cbn [List.length Nat.eqb negb nth_error ret]. rewrite Hint.
      reflexivity.
Qed.

(** An accepted request: the timer is armed first; then [run_at] is
    computed, the row is inserted and the confirmation is sent, each of
    which can raise and leave what was done before it. *)
Lemma schedule_accepted_eq (update : Update) (context : Context)
    (uuid4 : string) (utcnow : Z) (w : world) (d : Z) (t : string) :
  accepted cfg update context d t ->
  let user := effective_user_id update in
  let j := submitted_job user d t uuid4 in
  let r := submitted_row user d t uuid4 utcnow in
  let armed := mkWorld (schedules w) (job_queue w ++ [j]) (api_calls w)
                       (history w ++ [EvRunOnce j]) in
  schedule api_ok cfg update context uuid4 utcnow w =
  if negb (in_datetime_range (utcnow + Py.seconds d))
  then (Raise OverflowError, armed)
  else if existsb (has_id uuid4) (schedules w)
  then (Raise IntegrityError, armed)
  else
    (if api_ok (api_calls w) then Ok tt else Raise TelegramError,
     mkWorld (schedules w ++ [r]) (job_queue w ++ [j]) (S (api_calls w))
             (history w ++
              [EvRunOnce j; EvInsert r; EvLog Info (LogAdded uuid4);
               if api_ok (api_calls w)
               then EvReply (TxtUnderstood d) else EvApiError])).
Proof.
  intros (Hadm & a0 & Hargs & Hint & Hdig). cbv zeta.
  unfold schedule, in_datetime_range, submitted_job, submitted_row.
  rewrite Hadm, Hargs. mrun. rewrite Hint. mrun. rewrite Hdig.
  change (String.eqb "/freecredential" "/freecredential") with true. mrun.
  destruct ((Py.datetime_min <=? utcnow + Py.seconds d)
            && (utcnow + Py.seconds d <=? Py.datetime_max));
    mrun; [|reflexivity].
  destruct (existsb (has_id uuid4) (schedules w)); mrun; [reflexivity|].
  destruct (api_ok (api_calls w)); mrun;
    rewrite <- !app_assoc; reflexivity.
Qed.


(** C3. For every successful submission (an accepted request on which
    [schedule] returns normally) the handler first arms the timer, then
    inserts the row, then logs and confirms, in that order and nothing
    else; at the end the timer is in the job queue and the row in the
    table, both under the fresh id.  The timer is thus armed before the row
    is persisted. *)
Theorem schedule_arms_then_persists (update : Update) (context : Context)
    (uuid4 : string) (utcnow : Z) (w : world) (d : Z) (t : string) :
  accepted cfg update context d t ->
  fst (schedule api_ok cfg update context uuid4 utcnow w) = Ok tt ->
  let w' := snd (schedule api_ok cfg update context uuid4 utcnow w) in
  let j := submitted_job (effective_user_id update) d t uuid4 in
  let r := submitted_row (effective_user_id update) d t uuid4 utcnow in
  events_since w w' =
    [EvRunOnce j; EvInsert r; EvLog Info (LogAdded uuid4);
     EvReply (TxtUnderstood d)] /\
  job_queue w' = (job_queue w ++ [j])%list /\
  schedules w' = (schedules w ++ [r])%list /\
  name j = uuid4 /\ job_id r = uuid4 /\
  persisted_before_armed uuid4 (events_since w w') = false.
Proof.
  intros Hacc. cbv zeta.
  rewrite (schedule_accepted_eq update context uuid4 utcnow w d t Hacc).
  destruct (negb _); [discriminate|].
  destruct (existsb _ _); [discriminate|].
  destruct (api_ok (api_calls w)); cbn [fst snd]; [intros _|discriminate].
  erewrite events_since_app by (cbn [history]; reflexivity).
  cbn [schedules job_queue]. repeat split.
  cbn [persisted_before_armed submitted_job name].
  rewrite String.eqb_refl. reflexivity.
Qed.

(** An accepted request with a negative delay goes the same way as any
    other: with a representable date and a fresh id, a timer with a
    negative delay is armed and a row with [run_at] before [utcnow] is
    inserted. *)
Lemma schedule_accepts_negative_delay (update : Update) (context : Context)
    (uuid4 : string) (utcnow : Z) (w : world) (d : Z) (t : string) :
  accepted cfg update context d t ->
  d < 0 ->
  in_datetime_range (utcnow + Py.seconds d) = true ->
  existsb (has_id uuid4) (schedules w) = false ->
  let w' := snd (schedule api_ok cfg update context uuid4 utcnow w) in
  exists j r,
    job_queue w' = (job_queue w ++ [j])%list /\ when j < 0 /\
    schedules w' = (schedules w ++ [r])%list /\ run_at r < utcnow.
Proof.
  intros Hacc Hneg Hrange Hfresh. cbv zeta.
  rewrite (schedule_accepted_eq update context uuid4 utcnow w d t Hacc).
  rewrite Hrange, Hfresh. cbn [negb snd schedules job_queue].
  exists (submitted_job (effective_user_id update) d t uuid4),
    (submitted_row (effective_user_id update) d t uuid4 utcnow).
  unfold submitted_job, submitted_row, Py.seconds. cbn [when run_at].
  repeat split; lia.
Qed.

(** A request error leaves the table and the job queue as they were. *)
Lemma schedule_request_error_unchanged
    (update : Update) (context : Context) (uuid4 : string) (utcnow : Z)
    (w : world) :
  request_error cfg update context ->
  schedules (snd (schedule api_ok cfg update context uuid4 utcnow w))
  = schedules w /\
  job_queue (snd (schedule api_ok cfg update context uuid4 utcnow w))
  = job_queue w.
Proof.
  intros Herr.
  destruct (not_admin cfg (effective_user_id update)) eqn:Hadm.
  - rewrite schedule_unauthorized_eq by exact Hadm. split; reflexivity.
  - destruct (schedule_rejected_eq update context uuid4 utcnow w Hadm Herr)
      as [e ->].
    rewrite except_branch_eq. split; reflexivity.
Qed.



End Submit.

(** ** The commands the bot exposes *)

Section Commands.
Import Bot Spec.

Variable api_ok : nat -> bool.
Variable cfg : config.

(** A command either runs [schedule] or has no handler. *)
Lemma dispatch_cases (command : string) (update : Update)
    (context : Context) (uuid4 : string) (utcnow : Z) (w : world) :
  dispatch api_ok cfg command update context uuid4 utcnow w
  = schedule api_ok cfg update context uuid4 utcnow w \/
  dispatch api_ok cfg command update context uuid4 utcnow w = (Ok tt, w).
Proof.
  unfold dispatch, handlers. cbn [find fst snd].
  destruct (String.eqb "schedule" command); [left; reflexivity|].
  destruct (String.eqb "start" command); [left; reflexivity|].
  right. reflexivity.
Qed.



End Commands.

(** ** bot1.py rejects a delay below one second *)

Section Reminder.
Import Bot1.

Variable api_ok : nat -> bool.

Lemma set_reminder_rejects_short_delay (update : Update) (context : Context)
    (w : world) (a0 a1 : string) (rest : list string) (d : Z) :
  args context = a0 :: a1 :: rest ->
  Py.int a0 = Some d ->
  d < 1 ->
  let w' := snd (set_reminder api_ok update context w) in
  job_queue w' = job_queue w /\
  history w' = (history w ++
                [if api_ok (api_calls w)
                 then EvReply TxtDelayTooSmall else EvApiError])%list.
Proof.
  intros Hargs Hint Hlt. cbv zeta. unfold set_reminder. rewrite Hargs.
  cbv beta iota zeta delta [try_except bind ret raise index int_of reply_text].
  cbn [List.length Nat.ltb Nat.leb nth_error]. rewrite Hint.
  cbv beta iota.
  destruct (Z.ltb_spec d 1) as [_|Hge]; [|lia].
  destruct (api_ok (api_calls w)); split; reflexivity.
Qed.

End Reminder.

Example set_reminder_negative :
  Bot1.set_reminder Sample.up (Bot1.mkUpdate 42)
    (Bot1.mkContext ["-5"; "hello"]) (Bot1.mkWorld [] 0%nat [])
  = (Ok tt, Bot1.mkWorld [] 1%nat [Bot1.EvReply TxtDelayTooSmall]).
Proof. reflexivity. Qed.

(** ** Concrete runs *)

Lemma ctx_ok_accepted :
  Spec.accepted Sample.cfg Sample.admin Sample.ctx_ok 60 "777".
Proof.
  split; [reflexivity|]. exists "60". repeat split.
Defined.

(** The admin sends [/schedule 60 /freecredential 777] at t = 1 ms to an
    empty bot: the submission succeeds and, in the order of its effects,
    the timer "u1" is armed before the row "u1" is inserted. *)
Lemma schedule_arms_before_persisting :
  Spec.accepted Sample.cfg Sample.admin Sample.ctx_ok 60 "777" /\
  fst (Bot.schedule Sample.up Sample.cfg Sample.admin Sample.ctx_ok "u1" 1000
         Bot.empty_world) = Ok tt /\
  Spec.persisted_before_armed "u1"
    (Spec.events_since Bot.empty_world
       (snd (Bot.schedule Sample.up Sample.cfg Sample.admin Sample.ctx_ok
               "u1" 1000 Bot.empty_world))) = false.
Proof.
  split; [exact ctx_ok_accepted|]. split; reflexivity.
Qed.

Lemma schedule_arms_then_persists_witness :
  Spec.events_since Bot.empty_world
    (snd (Bot.schedule Sample.up Sample.cfg Sample.admin Sample.ctx_ok "u1"
            1000 Bot.empty_world))
  = [Bot.EvRunOnce (Spec.submitted_job 42 60 "777" "u1");
     Bot.EvInsert (Spec.submitted_row 42 60 "777" "u1" 1000);
     Bot.EvLog Info (LogAdded "u1");
     Bot.EvReply (TxtUnderstood 60)].
Proof.
  apply (schedule_arms_then_persists Sample.up Sample.cfg Sample.admin
           Sample.ctx_ok "u1" 1000 Bot.empty_world 60 "777").
  - exact ctx_ok_accepted.
  - reflexivity.
Defined.

(** The id is already in the table: the INSERT is refused, the exception
    is not caught by the handler, and the timer armed before it stays. *)
Example schedule_duplicate_id :
  Bot.schedule Sample.up Sample.cfg Sample.admin Sample.ctx_ok "j1" 1000
    Sample.w_stored
  = (Raise IntegrityError,
     Bot.mkWorld [Sample.row1] [Spec.submitted_job 42 60 "777" "j1"] 0%nat
       [Bot.EvRunOnce (Spec.submitted_job 42 60 "777" "j1")]).
Proof. reflexivity. Qed.

(** C4. The admin sends [/schedule -5 /freecredential 777] at t = 1 ms:
    [int] reads the delay as -5, the request is not rejected, a timer with
    a delay of -5 s is armed, a row with [run_at] 5 s before the submission
    is inserted, and the confirmation is sent. *)
Theorem schedule_negative_delay_creates_job :
  Py.int "-5" = Some (-5) /\
  Bot.schedule Sample.up Sample.cfg Sample.admin Sample.ctx_negative "u1"
    1000 Bot.empty_world
  = (Ok tt,
     Bot.mkWorld
       [Bot.mkRow "u1" 42 "/freecredential 777" "/seedetails 777" (-4999000)]
       [Bot.mkJob (-5000000)
          (Bot.mkJobData 42 "/freecredential 777" "/seedetails 777" "u1")
          "u1" None]
       1%nat
       [Bot.EvRunOnce
          (Bot.mkJob (-5000000)
             (Bot.mkJobData 42 "/freecredential 777" "/seedetails 777" "u1")
             "u1" None);
        Bot.EvInsert
          (Bot.mkRow "u1" 42 "/freecredential 777" "/seedetails 777"
             (-4999000));
        Bot.EvLog Info (LogAdded "u1");
        Bot.EvReply (TxtUnderstood (-5))]).
Proof. split; reflexivity. Qed.





(** * Further properties of the code *)

(** ** The table: insert, lookup, delete *)

Section Table.
Import Bot Spec Inv.

(** What [add_schedule_to_db] does, in one equation. *)
Lemma add_schedule_to_db_eq (id : string) (chat : Z) (c dc : string)
    (t : Z) (w : world) :
  add_schedule_to_db id chat c dc t w =
  if existsb (has_id id) (schedules w) then (Raise IntegrityError, w)
  else (Ok tt,
        mkWorld (schedules w ++ [mkRow id chat c dc t]) (job_queue w)
                (api_calls w)
                (history w ++ [EvInsert (mkRow id chat c dc t);
                               EvLog Info (LogAdded id)])).
Proof.
  unfold add_schedule_to_db. mrun.
  destruct (existsb (has_id id) (schedules w)); mrun; [reflexivity|].
  rewrite <- app_assoc. reflexivity.
Qed.

Lemma existsb_has_id_In (id : string) (rows : list Row) :
  existsb (has_id id) rows = true <-> In id (map job_id rows).
Proof.
  rewrite existsb_exists, in_map_iff. unfold has_id.
  split.
  - intros (r & Hin & Heq). exists r. apply String.eqb_eq in Heq. auto.
  - intros (r & Heq & Hin). exists r. split; [exact Hin|].
    apply String.eqb_eq, Heq.
Qed.

Lemma fresh_not_In (id : string) (rows : list Row) :
  existsb (has_id id) rows = false -> ~ In id (map job_id rows).
Proof.
  intros H Hin. apply existsb_has_id_In in Hin. congruence.
Qed.

Lemma filter_app_fresh (id : string) (rows : list Row) (r : Row) :
  existsb (has_id id) rows = false -> job_id r = id ->
  filter (fun x => negb (has_id id x)) (rows ++ [r]) = rows.
Proof.
  intros Hfresh Hid. rewrite filter_app, filter_absent by exact Hfresh.
  cbn [filter]. unfold has_id at 1. rewrite Hid, String.eqb_refl.
  apply app_nil_r.
Qed.

Lemma NoDup_snoc {A : Type} (l : list A) (x : A) :
  NoDup l -> ~ In x l -> NoDup (l ++ [x]).
Proof.
  intros Hl Hx. apply NoDup_app; [exact Hl | repeat constructor; intros [] |].
  intros y Hy [<-|[]]. contradiction.
Qed.

(** Dropping rows keeps the ids distinct. *)
Lemma unique_ids_filter (keep : Row -> bool) (rows : list Row) :
  NoDup (map job_id rows) -> NoDup (map job_id (filter keep rows)).
Proof.
  induction rows as [|r rows IH]; cbn [map filter]; [trivial|].
  rewrite NoDup_cons_iff. intros [Hfirst Hrest].
  destruct (keep r); [|exact (IH Hrest)].
  cbn [map]. apply NoDup_cons; [|exact (IH Hrest)].
  contradict Hfirst.
  apply in_map_iff in Hfirst. destruct Hfirst as (r' & Hid & Hin).
  rewrite <- Hid. apply in_map. apply filter_In in Hin. apply Hin.
Qed.


(** Insert under an id that is already stored: [IntegrityError] is
    raised and nothing at all changes, neither the table nor the history. *)
Theorem add_duplicate_id_refused (id : string) (chat : Z) (c dc : string)
    (t : Z) (w : world) :
  existsb (has_id id) (schedules w) = true ->
  add_schedule_to_db id chat c dc t w = (Raise IntegrityError, w).
Proof.
  intros Hdup. rewrite add_schedule_to_db_eq, Hdup. reflexivity.
Qed.

(** X2. Insert then delete.  After a successful insert, deleting the same
    id succeeds and gives back the table as it was before the insert. *)
Theorem add_then_remove_restores (id : string) (chat : Z) (c dc : string)
    (t : Z) (w : world) :
  existsb (has_id id) (schedules w) = false ->
  let w1 := snd (add_schedule_to_db id chat c dc t w) in
  fst (remove_schedule_from_db id w1) = Ok tt /\
  schedules (snd (remove_schedule_from_db id w1)) = schedules w.
Proof.
  intros Hfresh. cbv zeta.
  rewrite add_schedule_to_db_eq, Hfresh, remove_schedule_from_db_eq.
  cbn [fst snd schedules]. split; [reflexivity|].
  apply filter_app_fresh; [exact Hfresh | reflexivity].
Qed.

(** X3. Deleting an id removes the rows of that id and no other row: a row
    is in the table afterwards exactly when it was there before and has
    another id.  Rows that stay keep their order. *)
Theorem remove_only_that_id (id : string) (w : world) :
  let w' := snd (remove_schedule_from_db id w) in
  (forall r, In r (schedules w') <-> In r (schedules w) /\ job_id r <> id) /\
  (forall id', id' <> id ->
     filter (has_id id') (schedules w') = filter (has_id id') (schedules w)).
Proof.
  cbv zeta. rewrite remove_schedule_from_db_eq. cbn [snd schedules]. split.
  - intros r. rewrite filter_In. unfold has_id.
    destruct (String.eqb_spec (job_id r) id) as [E|E]; cbn [negb].
    + split; [intros [_ H]; discriminate | intros [_ H]; contradiction].
    + tauto.
  - intros id' Hne. induction (schedules w) as [|r rows IH];
      [reflexivity|].
    cbn [filter]. destruct (has_id id r) eqn:E1; cbn [negb filter].
    + destruct (has_id id' r) eqn:E2; [|exact IH].
      unfold has_id in E1, E2.
      apply String.eqb_eq in E1. apply String.eqb_eq in E2. congruence.
    + destruct (has_id id' r); [f_equal|]; exact IH.
Qed.

(** X4. As the query time advances rows only drop out of the pending
    list: what is pending at a later time was pending at any earlier
    time. *)
Theorem get_pending_antitone (asOf1 asOf2 : Z) (w : world) :
  asOf1 <= asOf2 ->
  exists rows1 rows2,
    fst (get_pending_schedules asOf1 w) = Ok rows1 /\
    fst (get_pending_schedules asOf2 w) = Ok rows2 /\
    incl rows2 rows1 /\
    rows2 = filter (fun r => asOf2 <? run_at r) rows1.
Proof.
  intros Hle. do 2 eexists. split; [reflexivity|]. split; [reflexivity|].
  split.
  - intros r Hin. apply filter_In in Hin. apply filter_In.
    destruct Hin as [Hin Hlt]. split; [exact Hin|].
    apply Z.ltb_lt in Hlt. apply Z.ltb_lt. lia.
  - induction (schedules w) as [|r rows IH]; [reflexivity|].
    cbn [filter]. destruct (Z.ltb_spec asOf2 (run_at r)) as [H2|H2].
    + assert (H1 : (asOf1 <? run_at r) = true) by (apply Z.ltb_lt; lia).
      rewrite H1. cbn [filter].
      assert (H2' : (asOf2 <? run_at r) = true) by (apply Z.ltb_lt; lia).
      rewrite H2'. f_equal. exact IH.
    + destruct (asOf1 <? run_at r); [|exact IH].
      cbn [filter].
      assert (H2' : (asOf2 <? run_at r) = false) by (apply Z.ltb_ge; lia).
      rewrite H2'. exact IH.
Qed.

End Table.

(** ** Start-up *)

Section Startup.
Import Bot Spec Inv.

Variable cfg : config.

(** [main], configured, in one equation, history included. *)
Lemma main_full_eq (utcnow_query utcnow : Z) (w : world) :
  configured cfg = true ->
  main cfg utcnow_query utcnow w =
  (Ok tt,
   mkWorld (schedules w)
           (job_queue w ++
            map (restored_job utcnow) (pending_at utcnow_query w))
           (api_calls w)
           (history w ++
            EvLog Info LogDbInitialized ::
            restore_events utcnow (pending_at utcnow_query w) ++
            [EvLog Info LogRunning])).
Proof.
  intros Hcfg. unfold main. rewrite (configured_guard cfg Hcfg).
  unfold init_db, log, emit, get_pending_schedules, get_schedules, ret.
  repeat (unfold bind; cbv beta iota). rewrite main_restore_eq.
  cbn [schedules job_queue api_calls history].
  unfold restore_events, pending_at. rewrite Z.add_0_l.
  destruct (0 <? _); cbn [schedules job_queue api_calls history];
    repeat rewrite <- app_assoc; cbn [app]; try rewrite app_nil_r;
    reflexivity.
Qed.





End Startup.




(** ** The life of a job: submit, fire, restart *)

Section Lifecycle.
Import Bot Spec Inv.

Variable api_ok : nat -> bool.
Variable cfg : config.

(** [alarm] when its three sends go through. *)
Lemma alarm_up_eq (job : Job) (w : world) :
  api_ok (api_calls w) = true ->
  api_ok (S (api_calls w)) = true ->
  api_ok (S (S (api_calls w))) = true ->
  alarm api_ok job w =
  (Ok tt,
   mkWorld (filter (fun r => negb (has_id (data_job_id (data job)) r))
                   (schedules w))
           (job_queue w) (S (S (S (api_calls w))))
           (history w ++
            [EvSend (job_chat_id job) TxtReminderHeader;
             EvSend (job_chat_id job) (TxtPlain (data_command (data job)));
             EvSend (job_chat_id job)
                    (TxtPlain (data_details_command (data job)));
             EvDelete (data_job_id (data job));
             EvLog Info (LogRemoved (data_job_id (data job)));
             EvLog Info (LogExecuted (data_job_id (data job)))])).
Proof.
  intros H0 H1 H2. unfold alarm. mrun. rewrite H0. mrun. rewrite H1. mrun.
  rewrite H2. mrun. repeat rewrite <- app_assoc. reflexivity.
Qed.

(** The table after [alarm]: as before, or without the rows of the job. *)
Lemma alarm_schedules_cases (job : Job) (w : world) :
  schedules (snd (alarm api_ok job w)) = schedules w \/
  schedules (snd (alarm api_ok job w)) =
    filter (fun r => negb (has_id (data_job_id (data job)) r)) (schedules w).
Proof.
  unfold alarm. mrun.
  destruct (api_ok (api_calls w)); mrun; [|left; reflexivity].
  destruct (api_ok (S (api_calls w))); mrun; [|left; reflexivity].
  destruct (api_ok (S (S (api_calls w)))); mrun; [|left; reflexivity].
  right. reflexivity.
Qed.

(** The table after [schedule]: as before, or one row more under the
    fresh id. *)
Lemma schedule_schedules_cases (update : Update) (context : Context)
    (uuid4 : string) (utcnow : Z) (w : world) :
  let w' := snd (schedule api_ok cfg update context uuid4 utcnow w) in
  schedules w' = schedules w \/
  existsb (has_id uuid4) (schedules w) = false /\
  exists d t,
    accepted cfg update context d t /\
    schedules w' =
      (schedules w ++
       [submitted_row (effective_user_id update) d t uuid4 utcnow])%list /\
    job_queue w' =
      (job_queue w ++
       [submitted_job (effective_user_id update) d t uuid4])%list.
Proof.
  cbv zeta.
  destruct (request_error_or_accepted cfg update context)
    as [Herr|(d & t & Hacc)].
  - left. apply (schedule_request_error_unchanged api_ok cfg), Herr.
  - rewrite (schedule_accepted_eq api_ok cfg update context uuid4 utcnow w
               d t Hacc).
    destruct (negb _); [left; reflexivity|].
    destruct (existsb _ _) eqn:Hfresh; [left; reflexivity|].
    right. split; [reflexivity|]. exists d, t. cbn [snd schedules job_queue].
    auto.
Qed.

(** X8. Submit, then fire.  After an accepted request with a fresh id and
    a representable date, with the Bot API reachable for the confirmation
    and the three sends, the armed timer is in the queue; firing it
    succeeds, sends the header and the two stored commands, and leaves the
    table as it was before the submission. *)
Theorem schedule_then_alarm_restores (update : Update) (context : Context)
    (uuid4 : string) (utcnow : Z) (w : world) (d : Z) (t : string) :
  accepted cfg update context d t ->
  in_datetime_range (utcnow + Py.seconds d) = true ->
  existsb (has_id uuid4) (schedules w) = false ->
  (forall k, (k < 4)%nat -> api_ok (api_calls w + k) = true) ->
  let w1 := snd (schedule api_ok cfg update context uuid4 utcnow w) in
  let j := submitted_job (effective_user_id update) d t uuid4 in
  In j (job_queue w1) /\
  fst (alarm api_ok j w1) = Ok tt /\
  schedules (snd (alarm api_ok j w1)) = schedules w /\
  sent_texts (events_since w1 (snd (alarm api_ok j w1))) =
    [TxtReminderHeader; TxtPlain ("/freecredential " ++ t);
     TxtPlain ("/seedetails " ++ t)].
Proof.
  intros Hacc Hrange Hfresh Hup. cbv zeta.
  rewrite (schedule_accepted_eq api_ok cfg update context uuid4 utcnow w d t
             Hacc).
  rewrite Hrange, Hfresh. cbn [negb snd].
  assert (H0 := Hup 0%nat ltac:(lia)). assert (H1 := Hup 1%nat ltac:(lia)).
  assert (H2 := Hup 2%nat ltac:(lia)). assert (H3 := Hup 3%nat ltac:(lia)).
  rewrite Nat.add_0_r in H0.
  replace (api_calls w + 1)%nat with (S (api_calls w)) in H1 by lia.
  replace (api_calls w + 2)%nat with (S (S (api_calls w))) in H2 by lia.
  replace (api_calls w + 3)%nat with (S (S (S (api_calls w)))) in H3 by lia.
  split; [cbn [job_queue]; apply in_or_app; right; left; reflexivity|].
  rewrite alarm_up_eq by (cbn [api_calls]; assumption).
  cbn [fst snd schedules]. split; [reflexivity|]. split.
  - apply filter_app_fresh; [exact Hfresh | reflexivity].
  - erewrite events_since_app by (cbn [history]; reflexivity). reflexivity.
Qed.


End Lifecycle.

(** ** What the schedule handler guards and what it lets through *)

Section Guards.
Import Bot Spec Inv.

Variable api_ok : nat -> bool.
Variable cfg : config.


(** X10. A fresh id that is not fresh.  When an accepted request is given
    an id the table already holds, the INSERT is refused: [IntegrityError]
    leaves the handler (it is not one of the caught exceptions), the table
    is unchanged, no confirmation or error reply is attempted, and the
    timer armed before the INSERT stays in the queue. *)
Theorem schedule_duplicate_id_orphans_timer
    (update : Update) (context : Context) (uuid4 : string) (utcnow : Z)
    (w : world) (d : Z) (t : string) :
  accepted cfg update context d t ->
  in_datetime_range (utcnow + Py.seconds d) = true ->
  existsb (has_id uuid4) (schedules w) = true ->
  let w' := snd (schedule api_ok cfg update context uuid4 utcnow w) in
  let j := submitted_job (effective_user_id update) d t uuid4 in
  fst (schedule api_ok cfg update context uuid4 utcnow w)
  = Raise IntegrityError /\
  schedules w' = schedules w /\
  job_queue w' = (job_queue w ++ [j])%list /\
  api_calls w' = api_calls w /\
  events_since w w' = [EvRunOnce j].
Proof.
  intros Hacc Hrange Hdup. cbv zeta.
  rewrite (schedule_accepted_eq api_ok cfg update context uuid4 utcnow w d t
             Hacc).
  rewrite Hrange, Hdup. cbn [negb fst snd schedules job_queue api_calls].
  repeat split. apply events_since_app. reflexivity.
Qed.

(** X11. A delay that takes [run_at] outside the range of [datetime] is
    not treated as a request error: [OverflowError] leaves the handler, no
    row is inserted and no reply of either kind is attempted. *)
Theorem schedule_overflow_escapes
    (update : Update) (context : Context) (uuid4 : string) (utcnow : Z)
    (w : world) (d : Z) (t : string) :
  accepted cfg update context d t ->
  in_datetime_range (utcnow + Py.seconds d) = false ->
  let w' := snd (schedule api_ok cfg update context uuid4 utcnow w) in
  fst (schedule api_ok cfg update context uuid4 utcnow w)
  = Raise OverflowError /\
  schedules w' = schedules w /\
  api_calls w' = api_calls w /\
  replied (events_since w w') = false.
Proof.
  intros Hacc Hrange. cbv zeta.
  rewrite (schedule_accepted_eq api_ok cfg update context uuid4 utcnow w d t
             Hacc).
  rewrite Hrange. cbn [negb fst snd schedules api_calls]. repeat split.
  erewrite events_since_app by (cbn [history]; reflexivity). reflexivity.
Qed.


(** X13. No row without its timer.  Whenever [schedule] adds a row to the
    table, the same call has put into the queue a timer that has the row's
    id as its name and in its data, and the row's chat and two commands in
    its data; the row's [run_at] is the submission time plus the timer's
    delay. *)
Theorem schedule_row_has_timer
    (update : Update) (context : Context) (uuid4 : string) (utcnow : Z)
    (w : world) (r : Row) :
  let w' := snd (schedule api_ok cfg update context uuid4 utcnow w) in
  In r (schedules w') -> ~ In r (schedules w) ->
  exists j,
    In j (job_queue w') /\
    name j = job_id r /\
    data j = mkJobData (chat_id r) (command_to_send r)
                       (details_command_to_send r) (job_id r) /\
    run_at r = utcnow + when j.
Proof.
  cbv zeta. intros Hin Hnew.
  destruct (schedule_schedules_cases api_ok cfg update context uuid4 utcnow w)
    as [Hsame | (_ & d & t & _ & Hs & Hq)].
  - rewrite Hsame in Hin. contradiction.
  - rewrite Hs in Hin. apply in_app_or in Hin.
    destruct Hin as [Hin|[<-|[]]]; [contradiction|].
    exists (submitted_job (effective_user_id update) d t uuid4).
    rewrite Hq. split; [apply in_or_app; right; left; reflexivity|].
    repeat split.
Qed.

End Guards.

(** ** Invariants of the scheduler *)

Section Invariants.
Import Bot Spec Inv.

Variable api_ok : nat -> bool.
Variable cfg : config.

(** [main] in all cases: the table and the API counter stay, the queue
    gets restored jobs appended. *)
Lemma main_world_cases (utcnow_query utcnow : Z) (w : world) :
  let w' := snd (main cfg utcnow_query utcnow w) in
  schedules w' = schedules w /\
  api_calls w' = api_calls w /\
  exists rows,
    job_queue w' = (job_queue w ++ map (restored_job utcnow) rows)%list.
Proof.
  cbv zeta. destruct (configured cfg) eqn:Hcfg.
  - rewrite main_full_eq by exact Hcfg. cbn [snd schedules job_queue api_calls].
    repeat split. eexists. reflexivity.
  - unfold configured in Hcfg. unfold main.
    assert (Hguard : negb (Py.truthy (BOT_TOKEN cfg))
                     || negb (Py.truthy (ADMIN_USERID cfg)) = true).
    { apply andb_false_iff in Hcfg. destruct Hcfg as [-> | ->];
        [reflexivity | apply orb_true_r]. }
    rewrite Hguard. cbn [snd log emit schedules job_queue api_calls].
    repeat split. exists []. cbn [map]. rewrite app_nil_r. reflexivity.
Qed.

Lemma unique_ids_snoc (rows : list Row) (r : Row) :
  NoDup (map job_id rows) ->
  existsb (has_id (job_id r)) rows = false ->
  NoDup (map job_id (rows ++ [r])).
Proof.
  intros Hu Hfresh. rewrite map_app. cbn [map].
  apply NoDup_snoc; [exact Hu | apply fresh_not_In, Hfresh].
Qed.

(** X14. The primary key is an invariant.  If no two rows of the table
    share a [job_id], this is still so after any command the bot handles,
    after a timer fires, after start-up, and after the two writing database
    functions, with any arguments and whether or not they succeed. *)
Theorem unique_ids_preserved (w : world)
    (command : string) (update : Update) (context : Context)
    (uuid4 : string) (utcnow utcnow_query : Z) (job : Job)
    (id : string) (chat : Z) (c dc : string) (t : Z) :
  unique_ids w ->
  unique_ids (snd (dispatch api_ok cfg command update context uuid4 utcnow w))
  /\ unique_ids (snd (alarm api_ok job w))
  /\ unique_ids (snd (main cfg utcnow_query utcnow w))
  /\ unique_ids (snd (add_schedule_to_db id chat c dc t w))
  /\ unique_ids (snd (remove_schedule_from_db id w)).
Proof.
  unfold unique_ids. intros Hu. repeat split.
  - destruct (dispatch_cases api_ok cfg command update context uuid4 utcnow w)
      as [-> | ->]; [|exact Hu].
    destruct (schedule_schedules_cases api_ok cfg update context uuid4
                utcnow w) as [-> | (Hfresh & d & tt' & _ & -> & _)];
      [exact Hu|].
    apply unique_ids_snoc; [exact Hu | exact Hfresh].
  - destruct (alarm_schedules_cases api_ok job w) as [-> | ->];
      [exact Hu | apply unique_ids_filter, Hu].
  - destruct (main_world_cases utcnow_query utcnow w) as (-> & _). exact Hu.
  - rewrite add_schedule_to_db_eq.
    destruct (existsb (has_id id) (schedules w)) eqn:Hfresh; [exact Hu|].
    cbn [snd schedules]. apply unique_ids_snoc; [exact Hu | exact Hfresh].
  - rewrite remove_schedule_from_db_eq. cbn [snd schedules].
    apply unique_ids_filter, Hu.
Qed.

Lemma str_inj (u v : Z) : Py.str u = Py.str v -> u = v.
Proof.
  unfold Py.str. intros H.
  assert (Hcanon : forall n, Z.to_int n <> Decimal.Pos Decimal.Nil /\
                             Z.to_int n <> Decimal.Neg Decimal.Nil).
  { intros n. split; intros E; pose proof (f_equal Z.of_int E) as E';
      rewrite DecimalZ.of_to in E'; cbn in E'; subst n; discriminate E. }
  apply DecimalZ.to_int_inj.
  assert (E : Some (Z.to_int u) = Some (Z.to_int v)).
  { rewrite <- (NilZero.isi (Z.to_int u)) by apply Hcanon.
    rewrite <- (NilZero.isi (Z.to_int v)) by apply Hcanon.
    rewrite H. reflexivity. }
  congruence.
Qed.

(** X15. The security check passes exactly for the user whose id, written
    in decimal, is the configured [ADMIN_USERID]; so at most one user id
    passes it, and none when the variable is unset. *)
Theorem security_check_single_admin (u v : Z) :
  (not_admin cfg u = false <-> ADMIN_USERID cfg = Some (Py.str u)) /\
  (not_admin cfg u = false -> not_admin cfg v = false -> u = v) /\
  (ADMIN_USERID cfg = None -> not_admin cfg u = true).
Proof.
  assert (Hiff : forall x, not_admin cfg x = false <->
                           ADMIN_USERID cfg = Some (Py.str x)).
  { intros x. unfold not_admin. destruct (ADMIN_USERID cfg) as [a|].
    - rewrite negb_false_iff, String.eqb_eq. split; congruence.
    - split; discriminate. }
  split; [apply Hiff|]. split.
  - intros Hu Hv. apply Hiff in Hu. apply Hiff in Hv.
    apply str_inj. congruence.
  - intros H. unfold not_admin. rewrite H. reflexivity.
Qed.

(** The queue after [schedule]: as before, or one timer more. *)
Lemma schedule_arms_cases (update : Update) (context : Context)
    (uuid4 : string) (utcnow : Z) (w : world) :
  job_queue (snd (schedule api_ok cfg update context uuid4 utcnow w))
  = job_queue w \/
  exists d t,
    job_queue (snd (schedule api_ok cfg update context uuid4 utcnow w)) =
      (job_queue w ++
       [submitted_job (effective_user_id update) d t uuid4])%list.
Proof.
  destruct (request_error_or_accepted cfg update context)
    as [Herr|(d & t & Hacc)].
  - left. apply (schedule_request_error_unchanged api_ok cfg), Herr.
  - right. exists d, t.
    rewrite (schedule_accepted_eq api_ok cfg update context uuid4 utcnow w
               d t Hacc).
    destruct (negb _); [reflexivity|].
    destruct (existsb _ _); reflexivity.
Qed.

(** The chats [alarm] writes to are all the job's [chat_id] attribute. *)
Lemma alarm_sent_to (job : Job) (w : world) :
  Forall (fun chat => chat = job_chat_id job)
         (sent_to (events_since w (snd (alarm api_ok job w)))).
Proof.
  unfold alarm. mrun.
  destruct (api_ok (api_calls w)); mrun.
  2: { erewrite events_since_app by (cbn [history]; reflexivity).
       constructor. }
  destruct (api_ok (S (api_calls w))); mrun.
  2: { erewrite events_since_app
         by (cbn [history]; rewrite <- ?app_assoc; reflexivity).
       repeat constructor. }
  destruct (api_ok (S (S (api_calls w)))); mrun.
  2: { erewrite events_since_app
         by (cbn [history]; rewrite <- ?app_assoc; reflexivity).
       repeat constructor. }
  erewrite events_since_app
    by (cbn [history]; rewrite <- ?app_assoc; reflexivity).
  repeat constructor.
Qed.

(** X16. Every timer that a command or the start-up puts into the queue
    has no [chat_id] attribute: the destination is only inside its data.
    [alarm] addresses its messages to that attribute and never reads the
    chat from the data, so for such a timer every message [alarm] sends is
    addressed to [None]. *)
Theorem armed_timers_have_no_chat (w w1 : world)
    (command : string) (update : Update) (context : Context)
    (uuid4 : string) (utcnow utcnow_query : Z) (j : Job) :
  In j (job_queue
          (snd (dispatch api_ok cfg command update context uuid4 utcnow w))) \/
  In j (job_queue (snd (main cfg utcnow_query utcnow w))) ->
  ~ In j (job_queue w) ->
  job_chat_id j = None /\
  Forall (fun chat => chat = None)
         (sent_to (events_since w1 (snd (alarm api_ok j w1)))).
Proof.
  intros Hin Hnew.
  assert (Hnone : job_chat_id j = None).
  { destruct Hin as [Hin|Hin].
    - destruct (dispatch_cases api_ok cfg command update context uuid4
                  utcnow w) as [E|E]; rewrite E in Hin;
        [|contradiction].
      destruct (schedule_arms_cases update context uuid4 utcnow w)
        as [E'|(d & t & E')]; rewrite E' in Hin; [contradiction|].
      apply in_app_or in Hin. destruct Hin as [Hin|[<-|[]]];
        [contradiction | reflexivity].
    - destruct (main_world_cases utcnow_query utcnow w)
        as (_ & _ & rows & E). rewrite E in Hin.
      apply in_app_or in Hin. destruct Hin as [Hin|Hin]; [contradiction|].
      apply in_map_iff in Hin. destruct Hin as (r & <- & _). reflexivity. }
  split; [exact Hnone|]. rewrite <- Hnone. apply alarm_sent_to.
Qed.

End Invariants.

(** ** bot1.py: the set command *)

Section Reminders.
Import Bot1 Inv.

Variable api_ok : nat -> bool.

(** The world after one reply attempt. *)
Lemma reply_text_eq (t : text) (w : world) :
  reply_text api_ok t w =
  (if api_ok (api_calls w) then Ok tt else Raise TelegramError,
   mkWorld (job_queue w) (S (api_calls w))
           (history w ++
            [if api_ok (api_calls w) then EvReply t else EvApiError])).
Proof. unfold reply_text. destruct (api_ok (api_calls w)); reflexivity. Qed.


(** [set_reminder] on two words or more, by the value of the first. *)
Lemma set_reminder_long_eq (update : Update) (context : Context) (w : world)
    (a0 a1 : string) (rest : list string) :
  args context = a0 :: a1 :: rest ->
  set_reminder api_ok update context w =
  match Py.int a0 with
  | None => reply_text api_ok TxtUsage w
  | Some d =>
      if d <? 1 then reply_text api_ok TxtDelayTooSmall w
      else
        let j := reminder_job update context d in
        (if api_ok (api_calls w) then Ok tt else Raise TelegramError,
         mkWorld (job_queue w ++ [j]) (S (api_calls w))
                 (history w ++
                  EvRunOnce j ::
                  (if api_ok (api_calls w)
                   then [EvReply (TxtGotIt d);
                         EvLog Info
                           (LogSetReminder
                              (effective_message_chat_id update) d)]
                   else [EvApiError])))
  end.
Proof.
  intros Hargs. unfold set_reminder, reminder_job. rewrite Hargs.
  cbv beta iota zeta delta
    [try_except bind ret raise index int_of reply_text run_once log].
  cbn [List.length Nat.ltb Nat.leb nth_error tl].
  destruct (Py.int a0) as [d|]; cbv beta iota; cbn [caught].
  2: { destruct (api_ok (api_calls w)); reflexivity. }
  destruct (d <? 1); cbv beta iota.
  { destruct (api_ok (api_calls w)); reflexivity. }
  cbn [job_queue api_calls history].
  destruct (api_ok (api_calls w)); cbv beta iota;
    cbn [job_queue api_calls history caught];
    repeat rewrite <- app_assoc; reflexivity.
Qed.





End Reminders.

Section SetDelay.
Import Bot1 Inv.

Variable api_ok : nat -> bool.

(** X20. A [/set] command whose first word is an integer below 1 (zero or
    negative) arms nothing: the only effect is the reply that the delay
    must be at least one second (or the failed attempt to send it). *)
Theorem set_reminder_rejects_below_one (update : Update) (context : Context)
    (w : world) (a0 a1 : string) (rest : list string) (d : Z) :
  args context = a0 :: a1 :: rest ->
  Py.int a0 = Some d ->
  d < 1 ->
  set_reminder api_ok update context w =
  (if api_ok (api_calls w) then Ok tt else Raise TelegramError,
   mkWorld (job_queue w) (S (api_calls w))
           (history w ++
            [if api_ok (api_calls w) then EvReply TxtDelayTooSmall
             else EvApiError])).
Proof.
  intros Hargs Hint Hlt.
  rewrite (set_reminder_long_eq api_ok update context w a0 a1 rest Hargs).
  rewrite Hint. destruct (Z.ltb_spec d 1) as [_|Hge]; [|lia].
  apply reply_text_eq.
Qed.

End SetDelay.

(** ** Delivery and what follows it *)

Section Delivery.
Import Bot Spec Inv.

Variable api_ok : nat -> bool.
Variable cfg : config.

(** X21. Firing the same job a second time, as happens when a start-up
    re-arms a job that had already been delivered but not yet deleted:
    with the Bot API reachable both runs succeed, the second sends the same
    three texts again, and the table after it is the table the first run
    left. *)
Theorem alarm_twice_redelivers (job : Job) (w : world) :
  (forall k, (k < 6)%nat -> api_ok (api_calls w + k) = true) ->
  let w1 := snd (alarm api_ok job w) in
  let w2 := snd (alarm api_ok job w1) in
  fst (alarm api_ok job w) = Ok tt /\
  fst (alarm api_ok job w1) = Ok tt /\
  schedules w2 = schedules w1 /\
  sent_texts (events_since w1 w2) = sent_texts (events_since w w1) /\
  List.length (sent_texts (events_since w1 w2)) = 3%nat.
Proof.
  intros Hup. cbv zeta.
  assert (H0 := Hup 0%nat ltac:(lia)). assert (H1 := Hup 1%nat ltac:(lia)).
  assert (H2 := Hup 2%nat ltac:(lia)). assert (H3 := Hup 3%nat ltac:(lia)).
  assert (H4 := Hup 4%nat ltac:(lia)). assert (H5 := Hup 5%nat ltac:(lia)).
  rewrite Nat.add_0_r in H0.
  replace (api_calls w + 1)%nat with (S (api_calls w)) in H1 by lia.
  replace (api_calls w + 2)%nat with (S (S (api_calls w))) in H2 by lia.
  replace (api_calls w + 3)%nat with (S (S (S (api_calls w)))) in H3 by lia.
  replace (api_calls w + 4)%nat
    with (S (S (S (S (api_calls w))))) in H4 by lia.
  replace (api_calls w + 5)%nat
    with (S (S (S (S (S (api_calls w)))))) in H5 by lia.
  rewrite (alarm_up_eq api_ok job w H0 H1 H2). cbn [fst snd].
  rewrite alarm_up_eq by (cbn [api_calls]; assumption).
  cbn [fst snd schedules].
  split; [reflexivity|]. split; [reflexivity|].
  split; [apply filter_twice|].
  erewrite !events_since_app by (cbn [history]; reflexivity).
  split; reflexivity.
Qed.

(** X22. A job that was delivered is not re-armed.  After [alarm] has
    succeeded for a job, no timer that a later start-up adds to the queue
    bears the id of that job, whatever the clock readings and the
    configuration. *)
Theorem alarm_then_main_no_refire (job : Job) (w w1 : world)
    (utcnow_query utcnow : Z) (j : Job) :
  fst (alarm api_ok job w) = Ok tt ->
  schedules w1 = schedules (snd (alarm api_ok job w)) ->
  In j (job_queue (snd (main cfg utcnow_query utcnow w1))) ->
  ~ In j (job_queue w1) ->
  name j <> data_job_id (data job).
Proof.
  intros Hok Htable Hin Hnew.
  assert (Hgone : existsb (has_id (data_job_id (data job))) (schedules w1)
                  = false).
  { rewrite Htable. revert Hok. unfold alarm. mrun.
    destruct (api_ok (api_calls w)); mrun; [|discriminate].
    destruct (api_ok (S (api_calls w))); mrun; [|discriminate].
    destruct (api_ok (S (S (api_calls w)))); mrun; [|discriminate].
    intros _. apply filter_removes. }
  destruct (configured cfg) eqn:Hcfg.
  - rewrite main_full_eq in Hin by exact Hcfg. cbn [snd job_queue] in Hin.
    apply in_app_or in Hin. destruct Hin as [Hin|Hin]; [contradiction|].
    apply in_map_iff in Hin. destruct Hin as (r & <- & Hr).
    unfold pending_at in Hr. apply filter_In in Hr. destruct Hr as [Hr _].
    cbn [restored_job name]. intros Heq.
    apply (fresh_not_In _ _ Hgone). rewrite <- Heq. apply in_map, Hr.
  - exfalso. apply Hnew. revert Hin. unfold configured in Hcfg. unfold main.
    assert (Hguard : negb (Py.truthy (BOT_TOKEN cfg))
                     || negb (Py.truthy (ADMIN_USERID cfg)) = true).
    { apply andb_false_iff in Hcfg. destruct Hcfg as [-> | ->];
        [reflexivity | apply orb_true_r]. }
    rewrite Hguard. cbn [snd log emit job_queue]. tauto.
Qed.

End Delivery.

(** ** Concrete runs of the further properties *)

Lemma w_two_unique : Inv.unique_ids Sample.w_two.
Proof.
  unfold Inv.unique_ids. cbn. constructor.
  - intros [H|[]]. discriminate H.
  - constructor; [intros [] | constructor].
Defined.

Lemma four_calls_up (n : nat) :
  forall k, (k < 4)%nat -> Sample.up (n + k) = true.
Proof. intros k _. reflexivity. Defined.

Lemma six_calls_up (n : nat) :
  forall k, (k < 6)%nat -> Sample.up (n + k) = true.
Proof. intros k _. reflexivity. Defined.


Lemma add_then_remove_restores_witness :
  Bot.schedules
    (snd (Bot.remove_schedule_from_db "j9"
            (snd (Bot.add_schedule_to_db "j9" 42 "/freecredential 9"
                    "/seedetails 9" 700 Sample.w_stored))))
  = [Sample.row1].
Proof.
  destruct (add_then_remove_restores "j9" 42 "/freecredential 9"
              "/seedetails 9" 700 Sample.w_stored) as (_ & H).
  - reflexivity.
  - exact H.
Defined.

Lemma get_pending_antitone_witness :
  exists rows1 rows2,
    fst (Bot.get_pending_schedules 0 Sample.w_two) = Ok rows1 /\
    fst (Bot.get_pending_schedules 2000 Sample.w_two) = Ok rows2 /\
    incl rows2 rows1.
Proof.
  destruct (get_pending_antitone 0 2000 Sample.w_two)
    as (rows1 & rows2 & H1 & H2 & Hincl & _).
  - lia.
  - exists rows1, rows2. auto.
Defined.

Lemma unique_ids_preserved_witness :
  Inv.unique_ids
    (snd (Bot.dispatch Sample.up Sample.cfg "schedule" Sample.admin
            Sample.ctx_ok "u1" 1000 Sample.w_two)) /\
  Inv.unique_ids (snd (Bot.alarm Sample.up Sample.job1 Sample.w_two)).
Proof.
  destruct (unique_ids_preserved Sample.up Sample.cfg Sample.w_two
              "schedule" Sample.admin Sample.ctx_ok "u1" 1000 0 Sample.job1
              "j9" 42 "a" "b" 700 w_two_unique) as (H1 & H2 & _).
  split; [exact H1 | exact H2].
Defined.

Lemma schedule_then_alarm_restores_witness :
  Bot.schedules
    (snd (Bot.alarm Sample.up Cases.job_u1
            (snd (Bot.schedule Sample.up Sample.cfg Sample.admin
                    Sample.ctx_ok "u1" 1000 Sample.w_stored))))
  = [Sample.row1].
Proof.
  destruct (schedule_then_alarm_restores Sample.up Sample.cfg Sample.admin
              Sample.ctx_ok "u1" 1000 Sample.w_stored 60 "777")
    as (_ & _ & H & _).
  - exact ctx_ok_accepted.
  - reflexivity.
  - reflexivity.
  - apply four_calls_up.
  - exact H.
Defined.


Lemma schedule_duplicate_id_orphans_timer_witness :
  fst (Bot.schedule Sample.up Sample.cfg Sample.admin Sample.ctx_ok "j1" 1000
         Sample.w_stored) = Raise IntegrityError /\
  Bot.job_queue
    (snd (Bot.schedule Sample.up Sample.cfg Sample.admin Sample.ctx_ok "j1"
            1000 Sample.w_stored))
  = [Spec.submitted_job 42 60 "777" "j1"].
Proof.
  destruct (schedule_duplicate_id_orphans_timer Sample.up Sample.cfg
              Sample.admin Sample.ctx_ok "j1" 1000 Sample.w_stored 60 "777")
    as (H1 & _ & H2 & _).
  - exact ctx_ok_accepted.
  - reflexivity.
  - reflexivity.
  - split; [exact H1 | exact H2].
Defined.

Lemma schedule_overflow_escapes_witness :
  fst (Bot.schedule Sample.up Sample.cfg Sample.admin Cases.ctx_far "u1" 1000
         Bot.empty_world) = Raise OverflowError /\
  Bot.schedules
    (snd (Bot.schedule Sample.up Sample.cfg Sample.admin Cases.ctx_far "u1"
            1000 Bot.empty_world)) = [].
Proof.
  destruct (schedule_overflow_escapes Sample.up Sample.cfg Sample.admin
              Cases.ctx_far "u1" 1000 Bot.empty_world 999999999999 "777")
    as (H1 & H2 & _).
  - split; [reflexivity|]. exists "999999999999". repeat split.
  - reflexivity.
  - split; [exact H1 | exact H2].
Defined.

Lemma schedule_row_has_timer_witness :
  exists j,
    In j (Bot.job_queue
            (snd (Bot.schedule Sample.up Sample.cfg Sample.admin
                    Sample.ctx_ok "u1" 1000 Bot.empty_world))) /\
    Bot.name j = "u1".
Proof.
  destruct (schedule_row_has_timer Sample.up Sample.cfg Sample.admin
              Sample.ctx_ok "u1" 1000 Bot.empty_world
              (Spec.submitted_row 42 60 "777" "u1" 1000))
    as (j & Hin & Hname & _).
  - simpl. left. reflexivity.
  - simpl. intros [].
  - exists j. split; [exact Hin | exact Hname].
Defined.

Lemma armed_timers_have_no_chat_witness :
  Bot.job_chat_id Cases.job_u1 = None /\
  Forall (fun chat => chat = None)
         (Inv.sent_to
            (Spec.events_since Sample.w_pending
               (snd (Bot.alarm Sample.up Cases.job_u1 Sample.w_pending)))).
Proof.
  apply (armed_timers_have_no_chat Sample.up Sample.cfg Bot.empty_world
           Sample.w_pending "schedule" Sample.admin Sample.ctx_ok "u1" 1000 0
           Cases.job_u1).
  - left. simpl. left. reflexivity.
  - simpl. intros [].
Defined.


Lemma set_reminder_rejects_below_one_witness :
  Bot1.set_reminder Sample.up Cases.chat7 Cases.set_zero Cases.idle
  = (Ok tt, Bot1.mkWorld [] 1%nat [Bot1.EvReply TxtDelayTooSmall]).
Proof.
  apply (set_reminder_rejects_below_one Sample.up Cases.chat7 Cases.set_zero
           Cases.idle "0" "now" [] 0).
  - reflexivity.
  - reflexivity.
  - lia.
Defined.

Lemma alarm_twice_redelivers_witness :
  Bot.schedules
    (snd (Bot.alarm Sample.up Sample.job1
            (snd (Bot.alarm Sample.up Sample.job1 Sample.w_pending))))
  = Bot.schedules (snd (Bot.alarm Sample.up Sample.job1 Sample.w_pending)).
Proof.
  destruct (alarm_twice_redelivers Sample.up Sample.job1 Sample.w_pending)
    as (_ & _ & H & _).
  - apply six_calls_up.
  - exact H.
Defined.

Lemma alarm_then_main_no_refire_witness :
  Bot.name (Spec.restored_job 0 Sample.row2) <> "j1".
Proof.
  apply (alarm_then_main_no_refire Sample.up Sample.cfg Sample.job1
           Sample.w_two
           (snd (Bot.alarm Sample.up Sample.job1 Sample.w_two)) 0 0
           (Spec.restored_job 0 Sample.row2)).
  - reflexivity.
  - reflexivity.
  - simpl. left. reflexivity.
  - simpl. intros [].
Defined.

(** [/set 300 Go to the meeting]: the timer and its text. *)
Example set_reminder_meeting :
  Bot1.job_queue
    (snd (Bot1.set_reminder Sample.up Cases.chat7 Cases.set_ok Cases.idle))
  = [Bot1.mkJob 300000000 "Go to the meeting" (Some 7)].
Proof. reflexivity. Qed.

(** An [ADMIN_USERID] that is not the plain decimal form admits nobody. *)
Example admin_id_with_leading_zero :
  Bot.not_admin (Bot.mkConfig (Some "token") (Some "042")) 42 = true.
Proof. reflexivity. Qed.
